(** * Storyteller: lore index, generation gateway and turn orchestrator

    A shallow embedding of [storyteller/lore.py], [storyteller/ai.py] and the
    body of the [while True] loop of [chat_loop] in [storyteller/cli.py],
    followed by the properties of these functions.

    Python values are modelled as follows.
    - [str] is a list of Unicode code points ([N]); literals are written with
      [lit], the characters a Rocq literal cannot hold (line feed, the double
      quote) with their code points.
    - A [dict] that is iterated is an association list in insertion order.
    - Code that raises or calls a collaborator (provider SDK, tool client,
      console, storage) runs in a state-and-exception monad over a [world]
      that records every such call in a chronological [trace]. *)

From Stdlib Require Import String Ascii.
From Stdlib Require Import List NArith ZArith Bool Lia.
Import ListNotations.

Set Implicit Arguments.

(* ================================================================== *)
(** ** Python strings *)
(* ================================================================== *)

Module Py.

Definition char := N.
Definition str := list char.

(** A literal of the source, one code point per character. *)
Definition lit (s : string) : str :=
  map N_of_ascii (list_ascii_of_string s).
Arguments lit s%_string : simpl never.

Definition nl : str := [10%N].
Definition dquote : str := [34%N].

Definition str_eq_dec : forall a b : str, {a = b} + {a <> b} :=
  list_eq_dec N.eq_dec.

(** [a == b] on strings. *)
Definition eqb (a b : str) : bool := if str_eq_dec a b then true else false.

(** Truthiness of a string: [if s:]. *)
Definition truthy (s : str) : bool :=
  match s with [] => false | _ :: _ => true end.

(** [s.startswith(prefix)]. *)
Fixpoint startswith (s prefix : str) : bool :=
  match prefix, s with
  | [], _ => true
  | _ :: _, [] => false
  | p :: ps, c :: cs => (c =? p)%N && startswith cs ps
  end.

(** [x in s]: [x] occurs in [s] as a contiguous substring. *)
Fixpoint py_in (x s : str) : bool :=
  startswith s x ||
  match s with
  | [] => false
  | _ :: t => py_in x t
  end.

(** [c.isspace()]: the code points [str.strip()] removes. *)
Definition isspace (c : char) : bool :=
  ((9 <=? c) && (c <=? 13) || (28 <=? c) && (c <=? 32) ||
   (c =? 133) || (c =? 160) || (c =? 5760) ||
   (8192 <=? c) && (c <=? 8202) ||
   (c =? 8232) || (c =? 8233) || (c =? 8239) || (c =? 8287) ||
   (c =? 12288))%N.

Fixpoint lstrip (s : str) : str :=
  match s with
  | [] => []
  | c :: t => if isspace c then lstrip t else s
  end.

Definition rstrip (s : str) : str := rev (lstrip (rev s)).

(** [s.strip()]. *)
Definition strip (s : str) : str := rstrip (lstrip s).

(** [s[:n]]. *)
Definition slice_to (n : nat) (s : str) : str := firstn n s.

(** [sep.join(parts)]. *)
Fixpoint join (sep : str) (parts : list str) : str :=
  match parts with
  | [] => []
  | [p] => p
  | p :: rest => p ++ sep ++ join sep rest
  end.

(** Case mapping.  [str.lower()] and [str.upper()] apply the Unicode case
    mapping code point by code point.  The tables below are those of Basic
    Latin and Latin-1 Supplement (U+0000 to U+00FF) together with the two
    code points their upper-casing leaves that range for (U+0178, U+039C) and
    U+03BC; any other code point is left unchanged. *)
Definition lower_char (c : char) : char :=
  (if (65 <=? c) && (c <=? 90) then c + 32
   else if (192 <=? c) && (c <=? 222) && negb (c =? 215) then c + 32
   else if c =? 376 then 255
   else if c =? 924 then 956
   else c)%N.

Definition upper_char (c : char) : str :=
  (if (97 <=? c) && (c <=? 122) then [c - 32]
   else if (224 <=? c) && (c <=? 254) && negb (c =? 247) then [c - 32]
   else if c =? 223 then [83; 83]
   else if c =? 181 then [924]
   else if c =? 255 then [376]
   else if c =? 956 then [924]
   else [c])%N.

Definition lower (s : str) : str := map lower_char s.
Definition upper (s : str) : str := flat_map upper_char s.

(** A character that lower-casing changes. *)
Definition is_upper_char (c : char) : bool := negb (lower_char c =? c)%N.

(** Every code point of [s] is below U+0080. *)
Definition is_ascii (s : str) : bool := forallb (fun c => (c <? 128)%N) s.

End Py.

(* ================================================================== *)
(** ** storyteller/lore.py *)
(* ================================================================== *)

Module Lore.
Import Py.

(** [Dict[str, str]]: keys unique, iteration in insertion order. *)
Definition dict := list (str * str).

Fixpoint dict_get (d : dict) (k : str) : option str :=
  match d with
  | [] => None
  | (k', v) :: rest => if eqb k' k then Some v else dict_get rest k
  end.

(** [d[k] = v]: overwrite in place, or append a new key. *)
Fixpoint dict_set (d : dict) (k v : str) : dict :=
  match d with
  | [] => [(k, v)]
  | (k', v') :: rest =>
      if eqb k' k then (k', v) :: rest else (k', v') :: dict_set rest k v
  end.

Definition dict_keys (d : dict) : list str := map fst d.

(** What [open(file_path).read()] gives for one file of the directory. *)
Inductive read_result :=
| ReadOk (text : str)
| ReadError (e : str).

(** One path yielded by [lore_dir.glob("*.md")]. *)
Record lore_file := LoreFile {
  file_path : str;
  stem : str;
  read : read_result
}.

(** The lore directory: [None] when it does not exist. *)
Definition lore_dir_state := option (list lore_file).

Record LoreManager := mkLoreManager {
  lore_cache : dict;
  printed : list str
}.

Definition load_step (self : LoreManager) (f : lore_file) : LoreManager :=
  match read f with
  | ReadOk text =>
      {| lore_cache := dict_set (lore_cache self) (stem f) text;
         printed := printed self |}
  | ReadError e =>
      {| lore_cache := lore_cache self;
         printed := printed self ++
           [lit "Error loading lore file " ++ file_path f ++ lit ": " ++ e] |}
  end.

Definition _load_lore (dir : lore_dir_state) (self : LoreManager) : LoreManager :=
  match dir with
  | None => self
  | Some files => fold_left load_step files self
  end.

(** [LoreManager.__init__]. *)
Definition init (dir : lore_dir_state) : LoreManager :=
  _load_lore dir {| lore_cache := []; printed := [] |}.

Definition get_lore (self : LoreManager) (topic : str) : option str :=
  dict_get (lore_cache self) (lower topic).

Definition get_all_lore_topics (self : LoreManager) : list str :=
  dict_keys (lore_cache self).

Definition no_lore_found : str := lit "No specific lore found for this query.".

Definition topic_block (topic content : str) : str :=
  lit "--- " ++ upper topic ++ lit " ---" ++ nl ++ content ++ nl.

Definition content_block (topic content : str) : str :=
  lit "--- " ++ upper topic ++ lit " (Relevant Content) ---" ++ nl ++ content ++ nl.

(** One iteration of the [for topic, content in ...] loop; [query] is
    already lower-cased. *)
Definition search_step (query : str) (results : list str) (item : str * str)
  : list str :=
  let '(topic, content) := item in
  if py_in query topic then results ++ [topic_block topic content]
  else if py_in query (lower content) then results ++ [content_block topic content]
  else results.

Definition search_lore (self : LoreManager) (query : str) : str :=
  let query := lower query in
  let results := fold_left (search_step query) (lore_cache self) [] in
  match results with
  | [] => no_lore_found
  | _ :: _ => join nl results
  end.

Definition refresh_lore (dir : lore_dir_state) (self : LoreManager) : LoreManager :=
  _load_lore dir {| lore_cache := []; printed := printed self |}.

End Lore.


(* ================================================================== *)
(** ** Runtime: exceptions, collaborators and the trace of their calls *)
(* ================================================================== *)

Module Runtime.
Import Py.

(** The exception classes the modelled code raises or names.  Every one is
    a subclass of [Exception]; [OtherException] stands for whatever else a
    collaborator raises (authentication, network, quota, a malformed upstream
    response read by the SDK accessors).  [KeyboardInterrupt] and
    [SystemExit], which are not under [Exception], are raised by no
    collaborator and are left out. *)
Inductive exc_class :=
| JSONDecodeError
| AttributeError
| EOFError
| OtherException.

Record exception := mkException {
  exc_type : exc_class;
  exc_msg : str          (* [str(e)] *)
}.

Definition is_JSONDecodeError (e : exception) : bool :=
  match exc_type e with JSONDecodeError => true | _ => false end.

(** [except Exception]: every modelled class is caught. *)
Definition is_Exception (e : exception) : bool := true.

Inductive result (A : Type) :=
| Ok (a : A)
| Raise (e : exception).
Arguments Raise {A} e.

(** What [json.loads] returns. *)
#[warnings="-register-all"]
Inductive json :=
| JNull
| JBool (b : bool)
| JInt (z : Z)
| JFloat (repr : str)
| JString (s : str)
| JArray (items : list json)
| JObject (fields : list (str * json)).

Record message := mkMessage {
  role : str;
  content : str
}.

(** One request handed to a provider SDK. *)
Inductive request :=
| OpenAIChatCompletion (model : str) (messages : list message)
| AnthropicMessage (model : str) (max_tokens : Z) (system : str)
    (messages : list message)
| GeminiGenerateContent (model : str) (system_instruction : option str)
    (contents : str).

(** What a run does that the statements observe, in the order it happens:
    reading a line, entering [generate_response], sending a request to a
    provider, calling [json.loads], invoking a tool, printing a status line,
    displaying a narration, and storing an event. *)
Inductive event :=
| EvAsk (prompt : str)
| EvGenerate (prompt system_instruction provider model : str)
| EvRequest (r : request)
| EvJsonLoads (s : str)
| EvCallTool (server_name tool_name : str) (args : json)
| EvPrint (line : str)
| EvMarkdown (text : str)
| EvLogEvent (story_id : Z) (description : str).

Record world := mkWorld {
  trace : list event;
  story_events : list (Z * str);   (* the storage's event table, oldest first *)
  stdin : list str
}.

(** The collaborators.  A provider or tool reply may depend on everything
    that happened before the call. *)
Record environment := mkEnvironment {
  getenv : str -> option str;
  provider_reply : list event -> request -> result str;
  tool_reply : list event -> str -> str -> json -> result str;
  json_parse : str -> option json    (* [None]: the text is not valid JSON *)
}.

Definition M (A : Type) := world -> result A * world.

Definition ret {A} (a : A) : M A := fun w => (Ok a, w).

Definition bind {A B} (m : M A) (f : A -> M B) : M B :=
  fun w =>
    match m w with
    | (Ok a, w') => f a w'
    | (Raise e, w') => (Raise e, w')
    end.

Definition raise {A} (e : exception) : M A := fun w => (Raise e, w).

(** [try: body  except <catches> as e: handler e]. *)
Definition try_except {A} (body : M A) (catches : exception -> bool)
  (handler : exception -> M A) : M A :=
  fun w =>
    match body w with
    | (Ok a, w') => (Ok a, w')
    | (Raise e, w') => if catches e then handler e w' else (Raise e, w')
    end.

(** The world after further calls [l]. *)
Definition extend (w : world) (l : list event) : world :=
  {| trace := trace w ++ l;
     story_events := story_events w;
     stdin := stdin w |}.

Definition emit (e : event) : M unit := fun w => (Ok tt, extend w [e]).

Definition lift {A} (r : result A) : M A := fun w => (r, w).

Definition history : M (list event) := fun w => (Ok (trace w), w).

Declare Scope monad_scope.
Delimit Scope monad_scope with monad.
Notation "x <- m ;; k" := (bind m (fun x => k))
  (at level 100, m at next level, right associativity) : monad_scope.
Notation "m ;; k" := (bind m (fun _ => k))
  (at level 100, right associativity) : monad_scope.

(** The events a run added to the trace. *)
Definition added (w w' : world) : list event :=
  skipn (length (trace w)) (trace w').

Definition count (p : event -> bool) (tr : list event) : nat :=
  length (filter p tr).

Definition is_generate (e : event) : bool :=
  match e with EvGenerate _ _ _ _ => true | _ => false end.
Definition is_request (e : event) : bool :=
  match e with EvRequest _ => true | _ => false end.
Definition is_json_loads (e : event) : bool :=
  match e with EvJsonLoads _ => true | _ => false end.
Definition is_call_tool (e : event) : bool :=
  match e with EvCallTool _ _ _ => true | _ => false end.
Definition is_log_event (e : event) : bool :=
  match e with EvLogEvent _ _ => true | _ => false end.
Definition is_markdown (e : event) : bool :=
  match e with EvMarkdown _ => true | _ => false end.

End Runtime.

(* ================================================================== *)
(** ** storyteller/ai.py *)
(* ================================================================== *)

Module AI.
Import Py Runtime.
Local Open Scope monad_scope.

Record AIGateway := mkAIGateway {
  openai_client : option str;      (* the client, by its api key *)
  anthropic_client : option str
}.

Section Gateway.
Variable E : environment.

(** [os.getenv(k)] used as a condition: set and not empty. *)
Definition env_key (k : str) : option str :=
  match getenv E k with
  | Some v => if truthy v then Some v else None
  | None => None
  end.

(** [AIGateway.__init__] with [_setup_clients]. *)
Definition _setup_clients : AIGateway :=
  {| openai_client := env_key (lit "OPENAI_API_KEY");
     anthropic_client := env_key (lit "ANTHROPIC_API_KEY") |}.

(** The SDK call together with the accessors that read the text out of its
    response: it returns the text or raises. *)
Definition send (r : request) : M str :=
  h <- history ;;
  emit (EvRequest r) ;;
  lift (provider_reply E h r).

Definition _generate_openai (self : AIGateway) (prompt system_instruction model : str)
  : M str :=
  match openai_client self with
  | None => ret (lit "Error: OpenAI API key not found.")
  | Some _ =>
      let messages := [] in
      let messages :=
        if truthy system_instruction
        then messages ++ [mkMessage (lit "system") system_instruction]
        else messages in
      let messages := messages ++ [mkMessage (lit "user") prompt] in
      send (OpenAIChatCompletion model messages)
  end.

Definition _generate_anthropic (self : AIGateway) (prompt system_instruction model : str)
  : M str :=
  match anthropic_client self with
  | None => ret (lit "Error: Anthropic API key not found.")
  | Some _ =>
      send (AnthropicMessage model 1024 system_instruction
              [mkMessage (lit "user") prompt])
  end.

Definition _generate_gemini (self : AIGateway) (prompt system_instruction model : str)
  : M str :=
  match env_key (lit "GEMINI_API_KEY") with
  | None => ret (lit "Error: Gemini API key not found.")
  | Some _ =>
      let model_instance := GeminiGenerateContent model None in
      let model_instance :=
        if truthy system_instruction
        then GeminiGenerateContent model (Some system_instruction)
        else model_instance in
      send (model_instance prompt)
  end.

Definition generate_response (self : AIGateway)
  (prompt system_instruction provider model : str) : M str :=
  emit (EvGenerate prompt system_instruction provider model) ;;
  let full_prompt :=
    if truthy system_instruction
    then system_instruction ++ nl ++ nl ++ prompt
    else prompt in
  try_except
    (if eqb provider (lit "openai") then
       _generate_openai self prompt system_instruction model
     else if eqb provider (lit "anthropic") then
       _generate_anthropic self prompt system_instruction model
     else if eqb provider (lit "gemini") then
       _generate_gemini self prompt system_instruction model
     else
       ret (lit "Error: Unknown provider '" ++ provider ++ lit "'"))
    is_Exception
    (fun e =>
       ret (lit "Error generating response with " ++ provider ++ lit ": "
              ++ exc_msg e)).

(** The text a request carries as its user message(s). *)
Definition user_texts (r : request) : list str :=
  match r with
  | OpenAIChatCompletion _ messages
  | AnthropicMessage _ _ _ messages =>
      map content (filter (fun m => eqb (role m) (lit "user")) messages)
  | GeminiGenerateContent _ _ contents => [contents]
  end.

End Gateway.
End AI.

(* ================================================================== *)
(** ** storyteller/cli.py: one pass through the loop of [chat_loop] *)
(* ================================================================== *)

Module Cli.
Import Py Lore Runtime AI.
Local Open Scope monad_scope.

(** A tool descriptor as [get_all_tools] lists it. *)
Record tool := mkTool {
  name : str;
  description : str;
  server_name : str
}.

Section Session.
(** What [chat_loop] holds when it enters the loop. *)
Variable E : environment.
Variable lore : LoreManager.
Variable ai : AIGateway.
Variable tools : list tool.
Variable provider model : str.
Variable story_id : Z.
Variable story_summary : str.

(** Modelled from the spec: [db.get_recent_events] (storyteller/db.py is not
    among the sources) fetches the last [limit] persisted events of the
    story, in chronological order, each by its description. *)
Definition get_recent_events (story_id : Z) (limit : nat) : M (list str) :=
  fun w =>
    let mine :=
      map snd (filter (fun e => (fst e =? story_id)%Z) (story_events w)) in
    (Ok (skipn (length mine - limit) mine), w).

(** Modelled from the spec: [db.log_event] (storyteller/db.py is not among
    the sources) appends one event to the story; events are never changed or
    removed. *)
Definition log_event (story_id : Z) (description : str) : M unit :=
  fun w =>
    (Ok tt, {| trace := trace w ++ [EvLogEvent story_id description];
               story_events := story_events w ++ [(story_id, description)];
               stdin := stdin w |}).

(** Modelled from the spec: [mcp_client.call_tool] (storyteller/mcp_client.py
    is not among the sources) invokes the tool on its owning server and
    returns its result, here by the text an f-string renders it as. *)
Definition call_tool (server_name tool_name : str) (args : json) : M str :=
  h <- history ;;
  emit (EvCallTool server_name tool_name args) ;;
  lift (tool_reply E h server_name tool_name args).

(** [Prompt.ask]: the next line of input, [EOFError] at its end. *)
Definition ask (prompt : str) : M str :=
  fun w =>
    match stdin w with
    | [] => (Raise (mkException EOFError []),
             {| trace := trace w ++ [EvAsk prompt];
                story_events := story_events w; stdin := [] |})
    | line :: rest =>
        (Ok line, {| trace := trace w ++ [EvAsk prompt];
                     story_events := story_events w; stdin := rest |})
    end.

Definition console_print (line : str) : M unit := emit (EvPrint line).
Definition console_print_markdown (text : str) : M unit := emit (EvMarkdown text).

Definition json_loads (s : str) : M json :=
  emit (EvJsonLoads s) ;;
  match json_parse E s with
  | Some v => ret v
  | None => raise (mkException JSONDecodeError [])
  end.

Fixpoint fields_get (fields : list (str * json)) (key : str) : option json :=
  match fields with
  | [] => None
  | (k, v) :: rest => if eqb k key then Some v else fields_get rest key
  end.

(** [o.get(key, default)]: only a [dict] has the method. *)
Definition get (o : json) (key : str) (default : json) : M json :=
  match o with
  | JObject fields =>
      ret (match fields_get fields key with Some v => v | None => default end)
  | _ => raise (mkException AttributeError (lit "object has no attribute 'get'"))
  end.

(** [t["name"] == tool_name]: a tool's name is a [str]. *)
Definition name_equals (t : tool) (tool_name : json) : bool :=
  match tool_name with
  | JString s => eqb (name t) s
  | _ => false
  end.

(** [next((t["server_name"] for t in tools if t["name"] == tool_name), None)]. *)
Fixpoint next_server_name (ts : list tool) (tool_name : json) : option str :=
  match ts with
  | [] => None
  | t :: rest =>
      if name_equals t tool_name then Some (server_name t)
      else next_server_name rest tool_name
  end.

(** [f"{tool_name}"] where [tool_name] has compared equal to a tool's name,
    hence is a [str]. *)
Definition format_name (tool_name : json) : str :=
  match tool_name with
  | JString s => s
  | _ => []
  end.

Definition indent : str := lit "            ".

Definition tool_instruction_text : str :=
  match tools with
  | [] => []
  | _ :: _ =>
      (lit "You have access to the following external tools. If you need to use one, output a JSON block like {"
         ++ dquote ++ lit "tool" ++ dquote ++ lit ": " ++ dquote ++ lit "tool_name"
         ++ dquote ++ lit ", " ++ dquote ++ lit "args" ++ dquote ++ lit ": {...}}." ++ nl)
      ++ (lit "Available Tools:" ++ nl
            ++ join nl (map (fun t => lit "- " ++ name t ++ lit ": " ++ description t)
                          tools))
  end.

Definition system_instruction_text (events_text relevant_lore tool_instruction : str)
  : str :=
  nl ++ indent ++ lit "You are an AI Storyteller/Dungeon Master." ++
  nl ++ indent ++
  nl ++ indent ++ lit "Current Story Summary:" ++
  nl ++ indent ++ story_summary ++
  nl ++ indent ++
  nl ++ indent ++ lit "Recent Events:" ++
  nl ++ indent ++ events_text ++
  nl ++ indent ++
  nl ++ indent ++ lit "Relevant Lore:" ++
  nl ++ indent ++ relevant_lore ++
  nl ++ indent ++
  nl ++ indent ++ tool_instruction ++
  nl ++ indent ++
  nl ++ indent ++ lit "Your goal is to guide the player through the story." ++
  nl ++ indent.

(** The test of line 187: the reply looks like a tool call. *)
Definition looks_like_tool_call (response : str) : bool :=
  startswith (strip response) (lit "{")
  && py_in (dquote ++ lit "tool" ++ dquote) response.

Definition follow_up_prompt_text (tool_name tool_result : str) : str :=
  lit "Tool " ++ tool_name ++ lit " returned: " ++ tool_result
    ++ lit ". Please continue the story.".

(** Lines 187 to 213: the value of [response] after the tool-call check. *)
Definition tool_round (system_instruction response : str) : M str :=
  if looks_like_tool_call response then
    try_except
      (tool_call <- json_loads response ;;
       tool_name <- get tool_call (lit "tool") JNull ;;
       tool_args <- get tool_call (lit "args") (JObject []) ;;
       let server_name := next_server_name tools tool_name in
       match server_name with
       | Some server_name =>
           if truthy server_name then
             console_print (lit "[dim]Calling tool " ++ format_name tool_name
                              ++ lit " on " ++ server_name ++ lit "...[/dim]") ;;
             tool_result <- call_tool server_name (format_name tool_name) tool_args ;;
             console_print (lit "[dim]Tool Result: " ++ tool_result ++ lit "[/dim]") ;;
             let follow_up_prompt :=
               follow_up_prompt_text (format_name tool_name) tool_result in
             generate_response E ai follow_up_prompt system_instruction provider model
           else ret response
       | None => ret response
       end)
      is_JSONDecodeError
      (fun _ => ret response)
  else ret response.

(** Lines 149 to 218: the loop body after the exit test. *)
Definition turn (user_input : str) : M unit :=
  let relevant_lore := search_lore lore user_input in
  recent_events <- get_recent_events story_id 5 ;;
  let events_text := join nl (map (fun e => lit "- " ++ e) recent_events) in
  let tool_instruction := tool_instruction_text in
  let system_instruction :=
    system_instruction_text events_text relevant_lore tool_instruction in
  response <- generate_response E ai user_input system_instruction provider model ;;
  response <- tool_round system_instruction response ;;
  console_print_markdown response ;;
  log_event story_id (lit "User: " ++ user_input) ;;
  log_event story_id (lit "AI: " ++ slice_to 50 response ++ lit "...").

Inductive flow := Break | Continue.

(** Lines 145 to 218: one pass through [while True]. *)
Definition loop_body : M flow :=
  user_input <- ask (lit "[bold cyan]You[/bold cyan]") ;;
  if existsb (eqb (lower user_input)) [lit "exit"; lit "quit"] then ret Break
  else (turn user_input ;; ret Continue).

(** The system instruction [turn] builds in world [w] for [user_input]. *)
Definition system_instruction_of (w : world) (user_input : str) : str :=
  match get_recent_events story_id 5 w with
  | (Ok recent_events, _) =>
      system_instruction_text
        (join nl (map (fun e => lit "- " ++ e) recent_events))
        (search_lore lore user_input) tool_instruction_text
  | (Raise _, _) => []
  end.

(** The two events a turn with final narration [response] stores. *)
Definition turn_events (user_input response : str) : list (Z * str) :=
  [(story_id, lit "User: " ++ user_input);
   (story_id, lit "AI: " ++ slice_to 50 response ++ lit "...")].

End Session.
End Cli.

(* ================================================================== *)
(** ** Vocabulary of the statements and concrete scenarios *)
(* ================================================================== *)

Module Spec.
Import Py Lore Runtime AI Cli.

(** The block [search_lore] contributes for one document; [query] is
    already lower-cased. *)
Definition matched_block (query : str) (item : str * str) : list str :=
  let '(topic, content) := item in
  if py_in query topic then [topic_block topic content]
  else if py_in query (lower content) then [content_block topic content]
  else [].

(** [b] contains an uppercase letter. *)
Definition has_upper (b : str) : bool := existsb is_upper_char b.

Definition corpus (d : dict) : LoreManager :=
  {| lore_cache := d; printed := [] |}.

(** How request [r] carries [prompt] and [system_instruction]: the prompt
    is the one user message; the system instruction is a leading system
    message (OpenAI, when not empty), the [system] field (Anthropic), or the
    instruction the model instance was constructed with (Gemini, when not
    empty). *)
Definition carries (prompt system_instruction model : str) (r : request) : Prop :=
  match r with
  | OpenAIChatCompletion m messages =>
      m = model /\
      messages =
        (if truthy system_instruction
         then [mkMessage (lit "system") system_instruction] else [])
        ++ [mkMessage (lit "user") prompt]
  | AnthropicMessage m max_tokens system messages =>
      m = model /\ max_tokens = 1024%Z /\ system = system_instruction /\
      messages = [mkMessage (lit "user") prompt]
  | GeminiGenerateContent m instruction contents =>
      m = model /\ contents = prompt /\
      instruction =
        (if truthy system_instruction then Some system_instruction else None)
  end.

(** The in-band text for a provider call that raised [e]. *)
Definition provider_error_text (provider : str) (e : exception) : str :=
  lit "Error generating response with " ++ provider ++ lit ": " ++ exc_msg e.

(** What [generate_response] returns for the provider's answer [r]. *)
Definition in_band (provider : str) (r : result str) : str :=
  match r with
  | Ok text => text
  | Raise e => provider_error_text provider e
  end.

(** [tool_call.get("tool")] and [tool_call.get("args", {})] on the parsed
    object. *)
Definition tool_field (fields : list (str * json)) : json :=
  match fields_get fields (lit "tool") with Some v => v | None => JNull end.

Definition args_field (fields : list (str * json)) : json :=
  match fields_get fields (lit "args") with Some v => v | None => JObject [] end.

(** How the tool-call check of a turn ends for a first reply. *)
Inductive resolution :=
| NotCandidate                  (* the reply does not look like a tool call *)
| NotJson                       (* it looks like one, [json.loads] rejects it *)
| NotObject                     (* it parses, but not to an object *)
| NoServer (tool_name : json)   (* no server name found for the "tool" field *)
| Resolved (server_name tool_name : str) (args : json).

Definition resolve (E : environment) (tools : list tool) (response : str)
  : resolution :=
  if looks_like_tool_call response then
    match json_parse E response with
    | None => NotJson
    | Some (JObject fields) =>
        match next_server_name tools (tool_field fields) with
        | Some server_name =>
            if truthy server_name
            then Resolved server_name (format_name (tool_field fields))
                   (args_field fields)
            else NoServer (tool_field fields)
        | None => NoServer (tool_field fields)
        end
    | Some _ => NotObject
    end
  else NotCandidate.

(** The two status lines around a tool invocation. *)
Definition calling_line (tool_name server_name : str) : str :=
  lit "[dim]Calling tool " ++ tool_name ++ lit " on " ++ server_name
    ++ lit "...[/dim]".

Definition result_line (tool_result : str) : str :=
  lit "[dim]Tool Result: " ++ tool_result ++ lit "[/dim]".

(** The trace the tool client sees when it is invoked for the reply
    [response] first seen in a world with trace [h]. *)
Definition tool_history (h : list event) (response tool_name server_name : str)
  : list event :=
  h ++ [EvJsonLoads response; EvPrint (calling_line tool_name server_name)].

(** The world after the display and the two storage calls that end a turn
    whose final narration is [response]. *)
Definition persist (story_id : Z) (user_input response : str) (w : world) : world :=
  {| trace := trace w ++
       [EvMarkdown response;
        EvLogEvent story_id (lit "User: " ++ user_input);
        EvLogEvent story_id (lit "AI: " ++ slice_to 50 response ++ lit "...")];
     story_events := story_events w ++ turn_events story_id user_input response;
     stdin := stdin w |}.

(** Scripted collaborators for the scenarios: the n-th request of a session
    gets the n-th reply, and the connection is refused after the last. *)
Definition scripted (replies : list (result str)) (h : list event) (r : request)
  : result str :=
  nth (count is_request h) replies
    (Raise (mkException OtherException (lit "Connection refused"))).

Definition all_keys (k : str) : option str := Some (lit "sk-test").

Definition parse_table (table : list (str * json)) (s : str) : option json :=
  fields_get table s.

Definition scenario (replies : list (result str)) (tool_result : result str)
  (table : list (str * json)) : environment :=
  {| getenv := all_keys;
     provider_reply := scripted replies;
     tool_reply := fun _ _ _ _ => tool_result;
     json_parse := parse_table table |}.

Definition fresh : world := {| trace := []; story_events := []; stdin := [] |}.

(** The reply [{"tool":"roll_dice","args":{}}] and what it parses to. *)
Definition roll_reply : str :=
  lit "{" ++ dquote ++ lit "tool" ++ dquote ++ lit ":" ++ dquote ++ lit "roll_dice"
    ++ dquote ++ lit "," ++ dquote ++ lit "args" ++ dquote ++ lit ":{}}".

Definition roll_fields : list (str * json) :=
  [(lit "tool", JString (lit "roll_dice")); (lit "args", JObject [])].

(** A reply that starts like a tool call and is not JSON:
    [{"tool": roll_dice]. *)
Definition broken_reply : str :=
  lit "{" ++ dquote ++ lit "tool" ++ dquote ++ lit ": roll_dice".

(** The reply
    [{"tool":"summon","args":{"creature":"ancient red dragon","count":1}}],
    68 characters long, and what it parses to. *)
Definition summon_reply : str :=
  lit "{" ++ dquote ++ lit "tool" ++ dquote ++ lit ":" ++ dquote ++ lit "summon"
    ++ dquote ++ lit "," ++ dquote ++ lit "args" ++ dquote ++ lit ":{" ++ dquote
    ++ lit "creature" ++ dquote ++ lit ":" ++ dquote ++ lit "ancient red dragon"
    ++ dquote ++ lit "," ++ dquote ++ lit "count" ++ dquote ++ lit ":1}}".

Definition summon_fields : list (str * json) :=
  [(lit "tool", JString (lit "summon"));
   (lit "args", JObject [(lit "creature", JString (lit "ancient red dragon"));
                         (lit "count", JInt 1)])].

Definition dice_tools : list tool :=
  [mkTool (lit "roll_dice") (lit "Roll dice") (lit "dice")].

(** The same tool listed under an empty server name. *)
Definition unnamed_server_tools : list tool :=
  [mkTool (lit "roll_dice") (lit "Roll dice") []].

Definition not_connected : exception :=
  mkException OtherException (lit "Server dice not connected.").

(** A session on the provider "openai" with story 1 and an empty corpus. *)
Definition play (E : environment) (tools : list tool) (user_input : str)
  : M unit :=
  turn E (corpus []) (_setup_clients E) tools (lit "openai") (lit "gpt-4o") 1%Z
    [] user_input.

Definition play_loop (E : environment) (tools : list tool) : M flow :=
  loop_body E (corpus []) (_setup_clients E) tools (lit "openai") (lit "gpt-4o")
    1%Z [].

End Spec.

(* ================================================================== *)
(** ** Further vocabulary *)
(* ================================================================== *)

Module Terms.
Import Py Lore.

Definition readable (f : lore_file) : bool :=
  match read f with ReadOk _ => true | ReadError _ => false end.

(** The line [_load_lore] prints for a file it cannot read. *)
Definition load_error_lines (f : lore_file) : list str :=
  match read f with
  | ReadOk _ => []
  | ReadError e => [lit "Error loading lore file " ++ file_path f ++ lit ": " ++ e]
  end.

End Terms.

(* ================================================================== *)
(** ** Properties of the string operations *)
(* ================================================================== *)

Module PyProps.
Import Py.

Lemma eqb_eq (a b : str) : eqb a b = true <-> a = b.
Proof.
  unfold eqb. destruct (str_eq_dec a b); split; intro H; congruence.
Qed.

Lemma eqb_neq (a b : str) : eqb a b = false <-> a <> b.
Proof.
  unfold eqb. destruct (str_eq_dec a b); split; intro H; congruence.
Qed.

Lemma eqb_refl (a : str) : eqb a a = true.
Proof. apply eqb_eq. reflexivity. Qed.

(** Case analysis on every comparison of code points in the goal. *)
Ltac char_cases :=
  repeat match goal with
    | |- context [(?a <=? ?b)%N] => destruct (N.leb_spec a b); simpl
    | |- context [(?a <? ?b)%N] => destruct (N.ltb_spec a b); simpl
    | |- context [(?a =? ?b)%N] => destruct (N.eqb_spec a b); simpl
    end.

Lemma lower_char_idempotent (c : char) : lower_char (lower_char c) = lower_char c.
Proof.
  unfold lower_char at 2. char_cases; unfold lower_char; char_cases;
    try reflexivity; try lia.
Qed.

Lemma lower_idempotent (s : str) : lower (lower s) = lower s.
Proof.
  unfold lower. rewrite map_map. apply map_ext. apply lower_char_idempotent.
Qed.

Lemma lower_upper_char_ascii (c : char) :
  (c <? 128)%N = true -> lower (upper_char c) = [lower_char c].
Proof.
  intro H. apply N.ltb_lt in H.
  unfold upper_char. char_cases; unfold lower, lower_char; simpl; char_cases;
    try reflexivity; try lia; f_equal; lia.
Qed.

Lemma lower_app (a b : str) : lower (a ++ b) = lower a ++ lower b.
Proof. apply map_app. Qed.

Lemma lower_upper_ascii (q : str) :
  is_ascii q = true -> lower (upper q) = lower q.
Proof.
  induction q as [|c q IH]; simpl; intro H; [reflexivity|].
  apply andb_true_iff in H. destruct H as [Hc Hq].
  rewrite lower_app, (lower_upper_char_ascii c Hc), (IH Hq). reflexivity.
Qed.

(** No string is the lower-casing of anything once it holds a character
    that lower-casing changes. *)
Lemma lower_has_no_upper (t : str) :
  existsb is_upper_char (lower t) = false.
Proof.
  induction t as [|c t IH]; simpl; [reflexivity|].
  rewrite IH, orb_false_r. unfold is_upper_char.
  rewrite lower_char_idempotent, N.eqb_refl. reflexivity.
Qed.

End PyProps.

(* ================================================================== *)
(** ** Properties of the lore index *)
(* ================================================================== *)

Module LoreProps.
Import Py Lore Spec PyProps.

Lemma dict_get_set (d : dict) (k v k' : str) :
  dict_get (dict_set d k v) k' = if eqb k k' then Some v else dict_get d k'.
Proof.
  induction d as [|[k0 v0] d IH]; simpl.
  - reflexivity.
  - destruct (eqb k0 k) eqn:E0; simpl.
    + apply eqb_eq in E0. subst k0. destruct (eqb k k'); reflexivity.
    + destruct (eqb k0 k') eqn:E1.
      * apply eqb_eq in E1. subst k'. apply eqb_neq in E0.
        assert (eqb k k0 = false) as -> by (apply eqb_neq; congruence).
        reflexivity.
      * exact IH.
Qed.

Lemma dict_get_none (d : dict) (k : str) :
  (forall k', In k' (dict_keys d) -> k' <> k) -> dict_get d k = None.
Proof.
  induction d as [|[k0 v0] d IH]; simpl; intro H; [reflexivity|].
  assert (eqb k0 k = false) as -> by (apply eqb_neq; apply H; left; reflexivity).
  apply IH. intros k' Hk'. apply H. right. exact Hk'.
Qed.

Lemma dict_keys_set (d : dict) (k v k' : str) :
  In k' (dict_keys (dict_set d k v)) <-> In k' (dict_keys d) \/ k' = k.
Proof.
  induction d as [|[k0 v0] d IH]; simpl.
  - intuition.
  - destruct (eqb k0 k) eqn:E0; simpl.
    + apply eqb_eq in E0. subst k0. intuition.
    + rewrite IH. intuition.
Qed.

(** After loading, the keys are the keys before and the base names of the
    files that could be read, as they are. *)
Lemma load_keys (files : list lore_file) (self : LoreManager) (k : str) :
  In k (dict_keys (lore_cache (fold_left load_step files self))) <->
  In k (dict_keys (lore_cache self)) \/
  exists f text, In f files /\ read f = ReadOk text /\ stem f = k.
Proof.
  revert self. induction files as [|f files IH]; intro self; simpl.
  - split; [auto|]. intros [H|(f & t & [] & _)]. exact H.
  - rewrite IH. unfold load_step at 1. destruct (read f) as [text|e] eqn:Er; simpl.
    + rewrite dict_keys_set. split.
      * intros [[H|H]|(g & t & Hg & Hr & Hs)]; eauto 8.
      * intros [H|(g & t & [Hg|Hg] & Hr & Hs)]; subst; eauto 8.
    + split.
      * intros [H|(g & t & Hg & Hr & Hs)]; eauto 8.
      * intros [H|(g & t & [Hg|Hg] & Hr & Hs)]; subst; eauto 8. congruence.
Qed.

(** A key written by no later file keeps its document. *)
Lemma load_keeps (files : list lore_file) (self : LoreManager) (k : str) :
  (forall g, In g files -> stem g <> k) ->
  dict_get (lore_cache (fold_left load_step files self)) k =
  dict_get (lore_cache self) k.
Proof.
  revert self. induction files as [|f files IH]; intros self H; simpl.
  - reflexivity.
  - rewrite IH by (intros g Hg; apply H; right; exact Hg).
    unfold load_step. destruct (read f) as [text|e]; simpl; [|reflexivity].
    rewrite dict_get_set.
    assert (eqb (stem f) k = false) as ->
      by (apply eqb_neq; apply H; left; reflexivity).
    reflexivity.
Qed.

(** Distinct base names: each readable file is stored under its own. *)
Lemma load_stores (files : list lore_file) (self : LoreManager)
  (f : lore_file) (text : str) :
  NoDup (map stem files) -> In f files -> read f = ReadOk text ->
  dict_get (lore_cache (fold_left load_step files self)) (stem f) = Some text.
Proof.
  revert self. induction files as [|g files IH]; intros self Hnd Hin Hr; simpl.
  - destruct Hin.
  - inversion Hnd as [|? ? Hnotin Hnd']; subst.
    destruct Hin as [->|Hin].
    + rewrite load_keeps.
      * unfold load_step. rewrite Hr. simpl. rewrite dict_get_set, eqb_refl.
        reflexivity.
      * intros g Hg Heq. apply Hnotin. rewrite <- Heq. apply in_map. exact Hg.
    + apply IH; assumption.
Qed.

Lemma search_results (query : str) (d : dict) (acc : list str) :
  fold_left (search_step query) d acc = acc ++ flat_map (matched_block query) d.
Proof.
  revert acc. induction d as [|[topic content] d IH]; intro acc; simpl.
  - rewrite app_nil_r. reflexivity.
  - rewrite IH. destruct (py_in query topic); [|destruct (py_in query (lower content))];
      simpl; rewrite <- ?app_assoc; reflexivity.
Qed.

(** [search_lore] depends on its query through [query.lower()] only. *)
Lemma search_lore_lower (self : LoreManager) (q q' : str) :
  lower q = lower q' -> search_lore self q = search_lore self q'.
Proof. unfold search_lore. intros ->. reflexivity. Qed.

Lemma uppercase_not_lowered (b t : str) : has_upper b = true -> lower t <> b.
Proof.
  intros Hb Heq. subst b. unfold has_upper in Hb.
  rewrite lower_has_no_upper in Hb. discriminate.
Qed.

End LoreProps.

Module LoreClaims.
Import Py Lore Spec PyProps LoreProps.

(** C4, evaluated where the code departs from it.  A lore directory holds
    [Dragon.md] with the body "Ancient red beast.".  The query "dragon"
    occurs in the topic name when case is ignored, yet [search_lore] compares
    the lower-cased query with the topic as stored and returns the sentinel;
    had the file been named [dragon.md] the document would be returned under
    a topic header. *)
Theorem search_lore_topic_case :
  let dir name :=
    Some [LoreFile (lit "lore/" ++ name ++ lit ".md") name
            (ReadOk (lit "Ancient red beast."))] in
  py_in (lower (lit "dragon")) (lower (lit "Dragon")) = true
  /\ search_lore (init (dir (lit "Dragon"))) (lit "dragon") = no_lore_found
  /\ search_lore (init (dir (lit "dragon"))) (lit "dragon")
     = lit "--- DRAGON ---" ++ nl ++ lit "Ancient red beast." ++ nl.
Proof. repeat split; vm_compute; reflexivity. Qed.

(** C5 as stated fails: with one document under the topic "strasse", the
    query "ß" (U+00DF) finds nothing while its upper-casing "SS" lower-cases
    to "ss" and finds the document. *)
Lemma search_lore_sharp_s :
  let self := corpus [(lit "strasse", lit "x")] in
  upper [223%N] = lit "SS"
  /\ search_lore self [223%N] = no_lore_found
  /\ search_lore self (upper [223%N]) = lit "--- STRASSE ---" ++ nl ++ lit "x" ++ nl
  /\ search_lore self [223%N] <> search_lore self (upper [223%N]).
Proof.
  repeat split; try (vm_compute; reflexivity).
  vm_compute. discriminate.
Qed.

(** C5, amended.  [search_lore q] equals [search_lore (q.upper())] for every
    query whose upper-casing lower-cases to [q.lower()]; every ASCII query is
    one; and on an empty corpus every query gets the sentinel. *)
Theorem search_lore_upper_query :
  (forall self q, lower (upper q) = lower q ->
     search_lore self q = search_lore self (upper q))
  /\ (forall q, is_ascii q = true -> lower (upper q) = lower q)
  /\ (forall q out, search_lore {| lore_cache := []; printed := out |} q
                    = no_lore_found).
Proof.
  split; [|split].
  - intros self q H. apply search_lore_lower. symmetry. exact H.
  - exact lower_upper_ascii.
  - intros q out. reflexivity.
Qed.

Lemma search_lore_upper_query_witness :
  let self := corpus [(lit "dragon", lit "Ancient red dragon, feared by all.")] in
  lower (upper (lit "Dragon")) = lower (lit "Dragon")
  /\ search_lore self (lit "Dragon") = search_lore self (upper (lit "Dragon")).
Proof.
  split.
  - reflexivity.
  - apply (proj1 search_lore_upper_query). reflexivity.
Defined.





End LoreClaims.

(* ================================================================== *)
(** ** Properties of the generation gateway *)
(* ================================================================== *)

Module AIProps.
Import Py Runtime AI Spec PyProps.

Lemma extend_extend (w : world) (a b : list event) :
  extend (extend w a) b = extend w (a ++ b).
Proof. unfold extend. simpl. rewrite app_assoc. reflexivity. Qed.

Lemma extend_nil (w : world) : extend w [] = w.
Proof. destruct w. unfold extend. simpl. rewrite app_nil_r. reflexivity. Qed.

Lemma added_extend (w : world) (l : list event) : added w (extend w l) = l.
Proof.
  unfold added, extend. simpl.
  rewrite skipn_app, skipn_all, Nat.sub_diag. reflexivity.
Qed.

Lemma count_app (p : event -> bool) (a b : list event) :
  count p (a ++ b) = count p a + count p b.
Proof. unfold count. rewrite filter_app, length_app. reflexivity. Qed.

Section Gateway.
Variable E : environment.

(** Complete description of one call: it returns a string, adds its own
    entry and at most one request to the trace, and that request, if any,
    carries the prompt and the system instruction apart; the returned text is
    the provider's answer or the in-band error for what it raised. *)
Lemma generate_response_run (self : AIGateway)
  (prompt system_instruction provider model : str) (w : world) :
  let g := EvGenerate prompt system_instruction provider model in
  exists text reqs,
    generate_response E self prompt system_instruction provider model w
    = (Ok text, extend w (g :: map EvRequest reqs))
    /\ length reqs <= 1
    /\ (forall r, In r reqs ->
          carries prompt system_instruction model r
          /\ text = in_band provider (provider_reply E (trace w ++ [g]) r)).
Proof.
  intro g.
  assert (Hsend : forall r, carries prompt system_instruction model r ->
            exists text reqs,
              try_except (send E r) is_Exception
                (fun e => ret (provider_error_text provider e)) (extend w [g])
              = (Ok text, extend w (g :: map EvRequest reqs))
              /\ length reqs <= 1
              /\ (forall r', In r' reqs ->
                    carries prompt system_instruction model r'
                    /\ text = in_band provider (provider_reply E (trace w ++ [g]) r'))).
  { intros r Hr.
    exists (in_band provider (provider_reply E (trace w ++ [g]) r)), [r].
    split; [|split].
    - unfold try_except, send, bind, history, emit, lift. simpl.
      destruct (provider_reply E (trace w ++ [g]) r); simpl;
        unfold ret; rewrite extend_extend; reflexivity.
    - simpl. lia.
    - intros r' [<-|[]]. split; [exact Hr|reflexivity]. }
  assert (Hstatic : forall text,
            exists text' reqs,
              try_except (ret text) is_Exception
                (fun e => ret (provider_error_text provider e)) (extend w [g])
              = (Ok text', extend w (g :: map EvRequest reqs))
              /\ length reqs <= 1
              /\ (forall r', In r' reqs ->
                    carries prompt system_instruction model r'
                    /\ text' = in_band provider (provider_reply E (trace w ++ [g]) r'))).
  { intro text. exists text, []. split; [reflexivity|]. split; [simpl; lia|].
    intros r' []. }
  unfold generate_response, bind at 1, emit. fold g.
  destruct (eqb provider (lit "openai")).
  { unfold _generate_openai. destruct (openai_client self); [|apply Hstatic].
    apply Hsend. simpl. split; reflexivity. }
  destruct (eqb provider (lit "anthropic")).
  { unfold _generate_anthropic. destruct (anthropic_client self); [|apply Hstatic].
    apply Hsend. simpl. repeat split. }
  destruct (eqb provider (lit "gemini")).
  { unfold _generate_gemini. destruct (env_key E (lit "GEMINI_API_KEY")); [|apply Hstatic].
    apply Hsend. unfold carries. destruct (truthy system_instruction); repeat split. }
  apply Hstatic.
Qed.

End Gateway.
End AIProps.

Module AIClaims.
Import Py Runtime AI Spec PyProps AIProps.

Lemma sent_request (E : environment) (self : AIGateway)
  (prompt system_instruction provider model : str) (w : world) (r : request) :
  In (EvRequest r)
     (added w (snd (generate_response E self prompt system_instruction
                      provider model w))) ->
  carries prompt system_instruction model r
  /\ fst (generate_response E self prompt system_instruction provider model w)
     = Ok (in_band provider
             (provider_reply E
                (trace w ++ [EvGenerate prompt system_instruction provider model])
                r)).
Proof.
  destruct (generate_response_run E self prompt system_instruction provider model w)
    as (text & reqs & Hrun & _ & Hreqs).
  rewrite Hrun. simpl. rewrite added_extend.
  intros [Habs|Hin]; [discriminate|].
  apply in_map_iff in Hin. destruct Hin as (r' & Heq & Hin).
  injection Heq as ->. destruct (Hreqs r Hin) as [Hc ->]. auto.
Qed.

Lemma user_texts_carried (prompt system_instruction model : str) (r : request) :
  carries prompt system_instruction model r -> user_texts r = [prompt].
Proof.
  destruct r as [m messages|m mt sy messages|m si contents]; simpl.
  - intros [_ ->]. destruct (truthy system_instruction); reflexivity.
  - intros (_ & _ & _ & ->). reflexivity.
  - intros (_ & -> & _). reflexivity.
Qed.

(** C6.  For a provider tag other than "openai", "anthropic" and "gemini",
    [generate_response] returns exactly "Error: Unknown provider '<tag>'"
    and sends no request: the call adds its own entry to the trace and
    nothing else. *)
Theorem unknown_provider (E : environment) (self : AIGateway)
  (prompt system_instruction tag model : str) (w : world)
  (Hopenai : tag <> lit "openai") (Hanthropic : tag <> lit "anthropic")
  (Hgemini : tag <> lit "gemini") :
  generate_response E self prompt system_instruction tag model w
  = (Ok (lit "Error: Unknown provider '" ++ tag ++ lit "'"),
     extend w [EvGenerate prompt system_instruction tag model])
  /\ count is_request
       (added w (snd (generate_response E self prompt system_instruction
                        tag model w))) = 0.
Proof.
  assert (Hrun : generate_response E self prompt system_instruction tag model w
                 = (Ok (lit "Error: Unknown provider '" ++ tag ++ lit "'"),
                    extend w [EvGenerate prompt system_instruction tag model])).
  { unfold generate_response, bind, emit, try_except.
    apply eqb_neq in Hopenai, Hanthropic, Hgemini.
    rewrite Hopenai, Hanthropic, Hgemini. reflexivity. }
  split; [exact Hrun|]. rewrite Hrun. simpl. rewrite added_extend. reflexivity.
Qed.

Lemma unknown_provider_witness :
  fst (generate_response (scenario [] (Ok []) []) (_setup_clients (scenario [] (Ok []) []))
         (lit "Hello") [] (lit "carrier-pigeon") (lit "gpt-4o") fresh)
  = Ok (lit "Error: Unknown provider 'carrier-pigeon'").
Proof.
  rewrite (proj1 (unknown_provider (scenario [] (Ok []) [])
                    (_setup_clients (scenario [] (Ok []) []))
                    (lit "Hello") [] (lit "gpt-4o") fresh
                    (tag := lit "carrier-pigeon")
                    ltac:(vm_compute; discriminate)
                    ltac:(vm_compute; discriminate)
                    ltac:(vm_compute; discriminate))).
  reflexivity.
Defined.






(** X2.  With no credential for the selected provider, [generate_response]
    returns that provider's "API key not found" text and sends no request. *)
Theorem missing_credential (E : environment) (self : AIGateway)
  (prompt system_instruction model : str) (w : world) :
  (openai_client self = None ->
   generate_response E self prompt system_instruction (lit "openai") model w
   = (Ok (lit "Error: OpenAI API key not found."),
      extend w [EvGenerate prompt system_instruction (lit "openai") model]))
  /\ (anthropic_client self = None ->
      generate_response E self prompt system_instruction (lit "anthropic") model w
      = (Ok (lit "Error: Anthropic API key not found."),
         extend w [EvGenerate prompt system_instruction (lit "anthropic") model]))
  /\ (env_key E (lit "GEMINI_API_KEY") = None ->
      generate_response E self prompt system_instruction (lit "gemini") model w
      = (Ok (lit "Error: Gemini API key not found."),
         extend w [EvGenerate prompt system_instruction (lit "gemini") model])).
Proof.
  repeat split; intro H;
    unfold generate_response, bind, emit, try_except, _generate_openai,
      _generate_anthropic, _generate_gemini;
    rewrite H; reflexivity.
Qed.

Lemma missing_credential_witness :
  let E := {| getenv := fun _ => None;
              provider_reply := scripted [];
              tool_reply := fun _ _ _ _ => Ok [];
              json_parse := fun _ => None |} in
  fst (generate_response E (_setup_clients E) (lit "Hello") [] (lit "openai")
         (lit "gpt-4o") fresh)
  = Ok (lit "Error: OpenAI API key not found.").
Proof.
  intro E.
  rewrite (proj1 (missing_credential E (_setup_clients E) (lit "Hello") []
                    (lit "gpt-4o") fresh) eq_refl).
  reflexivity.
Defined.

End AIClaims.

(* ================================================================== *)
(** ** Properties of the turn *)
(* ================================================================== *)

Module CliProps.
Import Py Lore Runtime AI Cli Spec PyProps AIProps.

Lemma added_trace (w w' : world) (l : list event) :
  trace w' = trace w ++ l -> added w w' = l.
Proof.
  intro H. unfold added. rewrite H, skipn_app, skipn_all, Nat.sub_diag.
  reflexivity.
Qed.

Lemma filter_requests (p : event -> bool) (reqs : list request) :
  (forall r, p (EvRequest r) = false) -> filter p (map EvRequest reqs) = [].
Proof.
  intro H. induction reqs as [|r reqs IH]; simpl; [reflexivity|].
  rewrite H. exact IH.
Qed.

Section Session.
Variable E : environment.
Variable lore : LoreManager.
Variable ai : AIGateway.
Variable tools : list tool.
Variable provider model : str.
Variable story_id : Z.
Variable story_summary : str.

Local Abbreviation generate := (generate_response E ai).
Local Abbreviation tool_round := (tool_round E ai tools provider model).
Local Abbreviation turn := (turn E lore ai tools provider model story_id story_summary).
Local Abbreviation system_instruction_of :=
  (system_instruction_of lore tools story_id story_summary).

(** The loop body after the exit test, call by call. *)
Lemma turn_run (user_input : str) (w : world) :
  turn user_input w =
  let system_instruction := system_instruction_of w user_input in
  match generate user_input system_instruction provider model w with
  | (Ok response, w1) =>
      match tool_round system_instruction response w1 with
      | (Ok response', w2) => (Ok tt, persist story_id user_input response' w2)
      | (Raise e, w2) => (Raise e, w2)
      end
  | (Raise e, w1) => (Raise e, w1)
  end.
Proof.
  unfold Cli.turn, Cli.system_instruction_of, bind, get_recent_events. simpl.
  destruct (generate _ _ _ _ w) as [[response|e] w1]; [|reflexivity].
  destruct (tool_round _ response w1) as [[response'|e] w2]; [|reflexivity].
  unfold console_print_markdown, emit, log_event, persist, extend, turn_events.
  simpl. rewrite <- !app_assoc. reflexivity.
Qed.

(** The tool-call check, case by case. *)
Lemma tool_round_run (system_instruction response : str) (w : world) :
  tool_round system_instruction response w =
  match resolve E tools response with
  | NotCandidate => (Ok response, w)
  | NotJson | NoServer _ => (Ok response, extend w [EvJsonLoads response])
  | NotObject =>
      (Raise (mkException AttributeError (lit "object has no attribute 'get'")),
       extend w [EvJsonLoads response])
  | Resolved server_name tool_name args =>
      let called :=
        [EvJsonLoads response; EvPrint (calling_line tool_name server_name);
         EvCallTool server_name tool_name args] in
      match tool_reply E (tool_history (trace w) response tool_name server_name)
              server_name tool_name args with
      | Ok tool_result =>
          generate (follow_up_prompt_text tool_name tool_result)
            system_instruction provider model
            (extend w (called ++ [EvPrint (result_line tool_result)]))
      | Raise e =>
          if is_JSONDecodeError e then (Ok response, extend w called)
          else (Raise e, extend w called)
      end
  end.
Proof.
  unfold Cli.tool_round, resolve.
  destruct (looks_like_tool_call response); [|reflexivity].
  unfold try_except, json_loads, bind at 1, emit.
  destruct (json_parse E response) as [v|]; [|reflexivity].
  destruct v as [|b|z|repr|s|items|fields]; try reflexivity.
  unfold bind, get, ret. fold (tool_field fields) (args_field fields).
  destruct (next_server_name tools (tool_field fields)) as [server_name|];
    [|reflexivity].
  destruct (truthy server_name); [|reflexivity].
  unfold console_print, call_tool, bind, emit, history, lift, tool_history,
    calling_line. simpl.
  rewrite <- !app_assoc. simpl.
  destruct (tool_reply E _ server_name _ _) as [tool_result|e].
  - rewrite !extend_extend.
    match goal with
    | |- context [generate_response E ai ?p ?s ?pr ?m ?w0] =>
        set (G := generate_response E ai p s pr m w0);
        destruct (generate_response_run E ai p s pr m w0)
          as (text & reqs & Hrun & _)
    end.
    match goal with |- _ = ?R => change R with G end.
    fold G in Hrun. rewrite Hrun. reflexivity.
  - rewrite !extend_extend. simpl. destruct (is_JSONDecodeError e); reflexivity.
Qed.

Lemma resolve_not_candidate (response : str) :
  resolve E tools response = NotCandidate <-> looks_like_tool_call response = false.
Proof.
  unfold resolve. destruct (looks_like_tool_call response); [|tauto].
  split; [|discriminate].
  destruct (json_parse E response) as [[| | | | | |fields]|]; try discriminate.
  destruct (next_server_name tools (tool_field fields)) as [sn|]; [|discriminate].
  destruct (truthy sn); discriminate.
Qed.

(** A resolved call names a discovered tool, the first of that name, and its
    server name is not empty. *)
Lemma next_server_name_some (ts : list tool) (v : json) (sn : str) :
  next_server_name ts v = Some sn ->
  exists s t, v = JString s /\ In t ts /\ name t = s /\ server_name t = sn.
Proof.
  induction ts as [|t ts IH]; simpl; [discriminate|].
  destruct (name_equals t v) eqn:Hn.
  - intros [= <-]. destruct v; try discriminate. simpl in Hn.
    apply eqb_eq in Hn. exists s, t. repeat split; auto.
  - intro H. destruct (IH H) as (s & t' & Hv & Hin & Hname & Hsn).
    exists s, t'. repeat split; auto.
Qed.

Lemma next_server_name_none (ts : list tool) (s : str) :
  (forall t, In t ts -> name t <> s) -> next_server_name ts (JString s) = None.
Proof.
  induction ts as [|t ts IH]; simpl; intro H; [reflexivity|].
  assert (eqb (name t) s = false) as ->
    by (apply eqb_neq; apply H; left; reflexivity).
  apply IH. intros t' Ht'. apply H. right. exact Ht'.
Qed.

Lemma resolved_names_tool (response server_name tool_name : str) (args : json) :
  resolve E tools response = Resolved server_name tool_name args ->
  looks_like_tool_call response = true
  /\ exists fields t,
       json_parse E response = Some (JObject fields)
       /\ tool_field fields = JString tool_name
       /\ args_field fields = args
       /\ In t tools /\ name t = tool_name
       /\ Cli.server_name t = server_name /\ server_name <> [].
Proof.
  unfold resolve. destruct (looks_like_tool_call response); [|discriminate].
  destruct (json_parse E response) as [[| | | | | |fields]|]; try discriminate.
  destruct (next_server_name tools (tool_field fields)) as [sn|] eqn:Hnext;
    [|discriminate].
  destruct (truthy sn) eqn:Ht; [|discriminate].
  intros [= <- <- <-]. split; [reflexivity|].
  destruct (next_server_name_some _ _ Hnext) as (s & t & Hv & Hin & Hname & Hsn).
  exists fields, t. rewrite Hv. simpl.
  repeat split; auto. intros ->. discriminate.
Qed.

Lemma added_persist (w : world) (l : list event) (user_input response : str) :
  added w (persist story_id user_input response (extend w l))
  = l ++ [EvMarkdown response;
          EvLogEvent story_id (lit "User: " ++ user_input);
          EvLogEvent story_id (lit "AI: " ++ slice_to 50 response ++ lit "...")].
Proof.
  apply added_trace. unfold persist, extend. simpl. rewrite app_assoc. reflexivity.
Qed.

(** The whole turn after a first reply [r], case by case. *)
Lemma turn_cases (user_input : str) (w w1 : world) (r : str) :
  generate user_input (system_instruction_of w user_input) provider model w
  = (Ok r, w1) ->
  match resolve E tools r with
  | NotCandidate =>
      turn user_input w = (Ok tt, persist story_id user_input r (extend w1 []))
  | NotJson | NoServer _ =>
      turn user_input w
      = (Ok tt, persist story_id user_input r (extend w1 [EvJsonLoads r]))
  | NotObject =>
      turn user_input w
      = (Raise (mkException AttributeError (lit "object has no attribute 'get'")),
         extend w1 [EvJsonLoads r])
  | Resolved server_name tool_name args =>
      let called :=
        [EvJsonLoads r; EvPrint (calling_line tool_name server_name);
         EvCallTool server_name tool_name args] in
      match tool_reply E (tool_history (trace w1) r tool_name server_name)
              server_name tool_name args with
      | Ok tool_result =>
          exists text reqs,
            turn user_input w
            = (Ok tt,
               persist story_id user_input text
                 (extend w1
                    (called ++
                     [EvPrint (result_line tool_result);
                      EvGenerate (follow_up_prompt_text tool_name tool_result)
                        (system_instruction_of w user_input) provider model]
                     ++ map EvRequest reqs)))
      | Raise e =>
          if is_JSONDecodeError e
          then turn user_input w
               = (Ok tt, persist story_id user_input r (extend w1 called))
          else turn user_input w = (Raise e, extend w1 called)
      end
  end.
Proof.
  intro Hreply. rewrite turn_run. simpl. rewrite Hreply, tool_round_run.
  destruct (resolve E tools r) as [| | |v|sn nm args]; try rewrite extend_nil;
    try reflexivity.
  simpl.
  destruct (tool_reply E (tool_history (trace w1) r nm sn) sn nm args)
    as [tool_result|e].
  - match goal with
    | |- context [generate_response E ai ?p ?s ?pr ?m ?w0] =>
        destruct (generate_response_run E ai p s pr m w0)
          as (text & reqs & Hrun & _)
    end.
    exists text, reqs. rewrite Hrun, extend_extend. simpl. reflexivity.
  - destruct (is_JSONDecodeError e); reflexivity.
Qed.

(** A turn that ends normally has displayed one narration and stored its
    two events, after calls that neither display nor store. *)
Lemma turn_completed (user_input : str) (w w' : world) :
  turn user_input w = (Ok tt, w') ->
  exists narration l,
    w' = persist story_id user_input narration (extend w l)
    /\ filter is_log_event l = [] /\ filter is_markdown l = [].
Proof.
  destruct (generate_response_run E ai user_input
              (system_instruction_of w user_input) provider model w)
    as (r & reqs1 & Hrun & _).
  pose proof (@turn_cases user_input w _ r Hrun) as Hcases.
  assert (Hreqs : forall reqs, filter is_log_event (map EvRequest reqs) = []
                               /\ filter is_markdown (map EvRequest reqs) = []).
  { intro reqs. split; apply filter_requests; reflexivity. }
  assert (Hgo : forall narration l,
            filter is_log_event l = [] -> filter is_markdown l = [] ->
            (Ok tt, persist story_id user_input narration
                      (extend (extend w (EvGenerate user_input
                                           (system_instruction_of w user_input)
                                           provider model :: map EvRequest reqs1)) l))
            = (Ok tt, w') ->
            exists narration l,
              w' = persist story_id user_input narration (extend w l)
              /\ filter is_log_event l = [] /\ filter is_markdown l = []).
  { intros narration l Hl Hm [= <-]. rewrite extend_extend.
    exists narration. eexists. split; [reflexivity|].
    rewrite !filter_app. simpl. rewrite Hl, Hm.
    destruct (Hreqs reqs1) as [-> ->]. split; reflexivity. }
  destruct (resolve E tools r) as [| | |v|sn nm args].
  - rewrite Hcases. apply Hgo; reflexivity.
  - rewrite Hcases. apply Hgo; reflexivity.
  - rewrite Hcases. discriminate.
  - rewrite Hcases. apply Hgo; reflexivity.
  - simpl in Hcases.
    destruct (tool_reply E _ sn nm args) as [tool_result|e].
    + destruct Hcases as (text & reqs & ->). apply Hgo.
      * rewrite ?filter_app. simpl. apply Hreqs.
      * rewrite ?filter_app. simpl. apply Hreqs.
    + destruct (is_JSONDecodeError e); rewrite Hcases.
      * apply Hgo; reflexivity.
      * discriminate.
Qed.

End Session.
End CliProps.

Module CliClaims.
Import Py Lore Runtime AI Cli Spec PyProps AIProps CliProps.

Section Session.
Variable E : environment.
Variable lore : LoreManager.
Variable ai : AIGateway.
Variable tools : list tool.
Variable provider model : str.
Variable story_id : Z.
Variable story_summary : str.

Local Abbreviation generate := (generate_response E ai).
Local Abbreviation turn := (turn E lore ai tools provider model story_id story_summary).
Local Abbreviation loop_body :=
  (loop_body E lore ai tools provider model story_id story_summary).
Local Abbreviation system_instruction_of :=
  (system_instruction_of lore tools story_id story_summary).





End Session.







End CliClaims.

(* ================================================================== *)
(** ** Further properties of the lore index *)
(* ================================================================== *)

Module LoreExtras.
Import Py Lore Spec Terms PyProps LoreProps.

Lemma keys_set_old (d : dict) (k v : str) :
  In k (dict_keys d) -> dict_keys (dict_set d k v) = dict_keys d.
Proof.
  induction d as [|[k0 v0] d IH]; simpl; intro H; [destruct H|].
  destruct (eqb k0 k) eqn:E0; simpl; [reflexivity|].
  f_equal. apply IH. destruct H as [H|H]; [|exact H].
  apply eqb_neq in E0. congruence.
Qed.

Lemma keys_set_new (d : dict) (k v : str) :
  ~ In k (dict_keys d) -> dict_keys (dict_set d k v) = dict_keys d ++ [k].
Proof.
  induction d as [|[k0 v0] d IH]; simpl; intro H; [reflexivity|].
  destruct (eqb k0 k) eqn:E0; simpl.
  - apply eqb_eq in E0. exfalso. apply H. left. exact E0.
  - f_equal. apply IH. intro Hin. apply H. right. exact Hin.
Qed.

Lemma keys_set_nodup (d : dict) (k v : str) :
  NoDup (dict_keys d) -> NoDup (dict_keys (dict_set d k v)).
Proof.
  intro Hnd. destruct (in_dec str_eq_dec k (dict_keys d)) as [Hin|Hin].
  - rewrite keys_set_old by exact Hin. exact Hnd.
  - rewrite keys_set_new by exact Hin.
    apply NoDup_app; [exact Hnd|repeat constructor; intros []|].
    intros x Hx [<-|[]]. exact (Hin Hx).
Qed.

Lemma load_nodup (files : list lore_file) (self : LoreManager) :
  NoDup (dict_keys (lore_cache self)) ->
  NoDup (dict_keys (lore_cache (fold_left load_step files self))).
Proof.
  revert self. induction files as [|f files IH]; intros self H; simpl; [exact H|].
  apply IH. unfold load_step. destruct (read f); simpl; [|exact H].
  apply keys_set_nodup. exact H.
Qed.

Lemma load_printed (files : list lore_file) (self : LoreManager) :
  printed (fold_left load_step files self)
  = printed self ++ flat_map load_error_lines files.
Proof.
  revert self. induction files as [|f files IH]; intro self; simpl.
  - rewrite app_nil_r. reflexivity.
  - rewrite IH. unfold load_step, load_error_lines.
    destruct (read f); simpl; [reflexivity|]. rewrite <- app_assoc. reflexivity.
Qed.

Lemma load_keys_in_order (files : list lore_file) (self : LoreManager) :
  NoDup (map stem files) ->
  (forall f, In f files -> ~ In (stem f) (dict_keys (lore_cache self))) ->
  dict_keys (lore_cache (fold_left load_step files self))
  = dict_keys (lore_cache self) ++ map stem (filter readable files).
Proof.
  revert self. induction files as [|f files IH]; intros self Hnd Hfresh; simpl.
  - rewrite app_nil_r. reflexivity.
  - inversion Hnd as [|? ? Hnotin Hnd']; subst.
    unfold readable at 1. unfold load_step at 2.
    destruct (read f) as [text|e] eqn:Hr.
    + rewrite IH; [| exact Hnd' |].
      * simpl. rewrite keys_set_new by (apply Hfresh; left; reflexivity).
        rewrite <- app_assoc. reflexivity.
      * intros g Hg. simpl. rewrite dict_keys_set. intros [Hin|Heq].
        -- apply (Hfresh g); [right; exact Hg|exact Hin].
        -- apply Hnotin. rewrite <- Heq. apply in_map. exact Hg.
    + rewrite IH; [reflexivity|exact Hnd'|].
      intros g Hg. simpl. apply Hfresh. right. exact Hg.
Qed.

Lemma load_cache_only (files : list lore_file) (s1 s2 : LoreManager) :
  lore_cache s1 = lore_cache s2 ->
  lore_cache (fold_left load_step files s1)
  = lore_cache (fold_left load_step files s2).
Proof.
  revert s1 s2. induction files as [|f files IH]; intros s1 s2 H; simpl; [exact H|].
  apply IH. unfold load_step. destruct (read f); simpl; rewrite H; reflexivity.
Qed.

(** X5.  What a load leaves in memory.  The topics are exactly the base
    names of the files that could be read, each once; with distinct base
    names they come in directory order.  A file that cannot be read is
    skipped with one printed line and the load goes on; a missing directory
    gives an empty index. *)
Theorem init_topics (files : list lore_file) :
  (forall k, In k (get_all_lore_topics (init (Some files))) <->
             exists f text, In f files /\ read f = ReadOk text /\ stem f = k)
  /\ NoDup (get_all_lore_topics (init (Some files)))
  /\ printed (init (Some files)) = flat_map load_error_lines files
  /\ (NoDup (map stem files) ->
      get_all_lore_topics (init (Some files)) = map stem (filter readable files))
  /\ get_all_lore_topics (init None) = [].
Proof.
  unfold get_all_lore_topics, init, _load_lore. repeat split.
  - intro H. apply load_keys in H. destruct H as [[]|H]. exact H.
  - intro H. apply load_keys. right. exact H.
  - apply load_nodup. constructor.
  - rewrite load_printed. reflexivity.
  - intro Hnd. rewrite load_keys_in_order; [reflexivity|exact Hnd|].
    intros f _ [].
Qed.

Lemma init_topics_witness :
  get_all_lore_topics
    (init (Some [LoreFile (lit "lore/elf.md") (lit "elf") (ReadOk (lit "E"));
                 LoreFile (lit "lore/orc.md") (lit "orc") (ReadError (lit "denied"));
                 LoreFile (lit "lore/Dragon.md") (lit "Dragon") (ReadOk (lit "D"))]))
  = [lit "elf"; lit "Dragon"].
Proof.
  rewrite (proj1 (proj2 (proj2 (proj2 (init_topics _)))));
    [reflexivity|].
  repeat constructor; simpl; intuition discriminate.
Defined.

(** X6.  [refresh_lore] rebuilds the index from the directory alone:
    whatever was loaded before, the mapping afterwards is the one a new
    [LoreManager] on that directory has, so lookups and searches agree with
    it and a topic whose file is gone is gone. *)
Theorem refresh_is_fresh_load (dir : lore_dir_state) (self : LoreManager) :
  lore_cache (refresh_lore dir self) = lore_cache (init dir)
  /\ (forall t, get_lore (refresh_lore dir self) t = get_lore (init dir) t)
  /\ (forall q, search_lore (refresh_lore dir self) q = search_lore (init dir) q)
  /\ printed (refresh_lore dir self) = printed self ++ printed (init dir).
Proof.
  assert (H : lore_cache (refresh_lore dir self) = lore_cache (init dir)).
  { unfold refresh_lore, init, _load_lore. destruct dir as [files|]; [|reflexivity].
    apply load_cache_only. reflexivity. }
  split; [exact H|]. split; [|split].
  - intro t. unfold get_lore. rewrite H. reflexivity.
  - intro q. unfold search_lore. rewrite H. reflexivity.
  - unfold refresh_lore, init, _load_lore. destruct dir as [files|]; simpl.
    + rewrite !load_printed. reflexivity.
    + rewrite app_nil_r. reflexivity.
Qed.



End LoreExtras.

(* ================================================================== *)
(** ** Further properties of the generation gateway *)
(* ================================================================== *)

Module AIExtras.
Import Py Runtime AI Spec Terms PyProps AIProps.

Lemma count_requests (reqs : list request) :
  count is_request (map EvRequest reqs) = length reqs.
Proof.
  unfold count. induction reqs as [|r reqs IH]; simpl; [reflexivity|].
  rewrite IH. reflexivity.
Qed.

(** X10.  One call, one attempt.  A call of [generate_response] sends at
    most one request, whatever the provider answers (no retry); when the
    provider answers with a text, that text is returned unchanged; and the
    call reads no input and stores no event. *)
Theorem single_attempt (E : environment) (self : AIGateway)
  (prompt system_instruction provider model : str) (w : world) :
  let run := generate_response E self prompt system_instruction provider model w in
  count is_request (added w (snd run)) <= 1
  /\ count is_generate (added w (snd run)) = 1
  /\ story_events (snd run) = story_events w
  /\ stdin (snd run) = stdin w
  /\ (forall r text,
        In (EvRequest r) (added w (snd run)) ->
        provider_reply E
          (trace w ++ [EvGenerate prompt system_instruction provider model]) r
        = Ok text ->
        fst run = Ok text).
Proof.
  cbv zeta.
  destruct (generate_response_run E self prompt system_instruction provider model w)
    as (text & reqs & Hrun & Hlen & Hreqs).
  rewrite Hrun. simpl. rewrite added_extend.
  change (EvGenerate prompt system_instruction provider model :: map EvRequest reqs)
    with ([EvGenerate prompt system_instruction provider model]
            ++ map EvRequest reqs).
  rewrite !count_app, count_requests. repeat split.
  - simpl. exact Hlen.
  - unfold count at 2.
    rewrite (@CliProps.filter_requests is_generate reqs (fun _ => eq_refl)).
    reflexivity.
  - intros r text' [Habs|Hin] Hok; [discriminate|].
    apply in_map_iff in Hin. destruct Hin as (r' & [= ->] & Hin).
    destruct (Hreqs r Hin) as [_ ->]. rewrite Hok. reflexivity.
Qed.

Lemma single_attempt_witness :
  let E := scenario [Ok (lit "Once upon a time")] (Ok []) [] in
  fst (generate_response E (_setup_clients E) (lit "Hello") [] (lit "anthropic")
         (lit "claude-3") fresh)
  = Ok (lit "Once upon a time").
Proof.
  intro E.
  apply (proj2 (proj2 (proj2 (proj2
           (single_attempt E (_setup_clients E) (lit "Hello") [] (lit "anthropic")
              (lit "claude-3") fresh))))
           (AnthropicMessage (lit "claude-3") 1024 []
              [mkMessage (lit "user") (lit "Hello")])).
  - vm_compute. right. left. reflexivity.
  - reflexivity.
Defined.

End AIExtras.

(* ================================================================== *)
(** ** Further properties of the turn *)
(* ================================================================== *)

Module CliExtras.
Import Py Lore Runtime AI Cli Spec Terms PyProps AIProps CliProps AIExtras.

Lemma lstrip_keeps_last (l : str) (c : char) :
  isspace c = false -> exists l', lstrip (l ++ [c]) = l' ++ [c].
Proof.
  intro Hc. induction l as [|d l IH]; simpl.
  - rewrite Hc. exists []. reflexivity.
  - destruct (isspace d); [exact IH|]. exists (d :: l). reflexivity.
Qed.

(** A reply that starts with a character that is neither white space nor
    an opening brace does not look like a tool call. *)
Lemma plain_text_not_candidate (c : char) (rest : str) :
  isspace c = false -> c <> 123%N -> looks_like_tool_call (c :: rest) = false.
Proof.
  intros Hc Hb. unfold looks_like_tool_call, strip, rstrip.
  cbn [lstrip]. rewrite Hc. cbn [rev].
  destruct (lstrip_keeps_last (rev rest) c Hc) as (l' & ->).
  rewrite rev_app_distr. simpl.
  apply N.eqb_neq in Hb. rewrite Hb. reflexivity.
Qed.

Section Session.
Variable E : environment.
Variable lore : LoreManager.
Variable ai : AIGateway.
Variable tools : list tool.
Variable provider model : str.
Variable story_id : Z.
Variable story_summary : str.

Local Abbreviation generate := (generate_response E ai).
Local Abbreviation tool_round := (tool_round E ai tools provider model).
Local Abbreviation turn := (turn E lore ai tools provider model story_id story_summary).
Local Abbreviation system_instruction_of :=
  (system_instruction_of lore tools story_id story_summary).

(** What the tool-call check adds to the trace. *)
Lemma tool_round_adds (system_instruction response : str) (w : world) :
  exists l,
    snd (tool_round system_instruction response w) = extend w l
    /\ count is_request l <= 1 /\ count is_generate l <= 1
    /\ count is_call_tool l <= 1
    /\ filter is_markdown l = [] /\ filter is_log_event l = [].
Proof.
  rewrite tool_round_run.
  destruct (resolve E tools response) as [| | |v|sn nm args].
  - exists []. rewrite extend_nil. repeat split; try reflexivity; unfold count; simpl; lia.
  - eexists. split; [reflexivity|]. repeat split; try reflexivity; unfold count; simpl; lia.
  - eexists. split; [reflexivity|]. repeat split; try reflexivity; unfold count; simpl; lia.
  - eexists. split; [reflexivity|]. repeat split; try reflexivity; unfold count; simpl; lia.
  - cbv zeta.
    destruct (tool_reply E (tool_history (trace w) response nm sn) sn nm args)
      as [tool_result|e].
    + match goal with
      | |- context [generate_response E ai ?p ?s ?pr ?m ?w0] =>
          destruct (generate_response_run E ai p s pr m w0)
            as (text & reqs & Hrun & Hlen & _)
      end.
      rewrite Hrun. cbn [snd]. rewrite extend_extend. eexists.
      split; [reflexivity|].
      rewrite !count_app, !filter_app. cbn [app].
      change (EvGenerate (follow_up_prompt_text nm tool_result) system_instruction
                provider model :: map EvRequest reqs)
        with ([EvGenerate (follow_up_prompt_text nm tool_result) system_instruction
                 provider model] ++ map EvRequest reqs).
      rewrite !count_app, !filter_app, count_requests.
      unfold count.
      rewrite !(@filter_requests _ reqs (fun _ => eq_refl)).
      simpl. repeat split; try reflexivity; lia.
    + destruct (is_JSONDecodeError e); eexists; (split; [reflexivity|]);
        repeat split; try reflexivity; unfold count; simpl; lia.
Qed.

(** X12.  A provider failure is narrated, it does not end the turn.  When
    the request of the first call makes the provider raise [e], the turn
    ends normally: the text "Error generating response with <provider>:
    <str(e)>" is not taken for a tool call, it is displayed and its two
    events are stored. *)
Theorem provider_failure_narrated (user_input : str) (w : world)
  (req : request) (e : exception)
  (Hsent : In (EvRequest req)
             (added w (snd (generate user_input
                              (system_instruction_of w user_input)
                              provider model w))))
  (Hraise : provider_reply E
              (trace w ++ [EvGenerate user_input
                             (system_instruction_of w user_input) provider model])
              req = Raise e) :
  let r := lit "Error generating response with " ++ provider ++ lit ": "
             ++ exc_msg e in
  let w1 := snd (generate user_input (system_instruction_of w user_input)
                   provider model w) in
  let w' := snd (turn user_input w) in
  fst (turn user_input w) = Ok tt
  /\ added w1 w'
     = [EvMarkdown r;
        EvLogEvent story_id (lit "User: " ++ user_input);
        EvLogEvent story_id (lit "AI: " ++ slice_to 50 r ++ lit "...")]
  /\ story_events w'
     = story_events w
       ++ [(story_id, lit "User: " ++ user_input);
           (story_id, lit "AI: " ++ slice_to 50 r ++ lit "...")].
Proof.
  cbv zeta.
  apply AIClaims.sent_request in Hsent. destruct Hsent as [_ Hfst].
  rewrite Hraise in Hfst. cbn [in_band] in Hfst. unfold provider_error_text in Hfst.
  destruct (generate_response_run E ai user_input
              (system_instruction_of w user_input) provider model w)
    as (text & reqs & Hrun & _).
  rewrite Hrun in Hfst. cbn [fst] in Hfst.
  assert (Htext : text = lit "Error generating response with " ++ provider
                           ++ lit ": " ++ exc_msg e) by congruence.
  clear Hfst. subst text.
  pose proof (@turn_cases E lore ai tools provider model story_id story_summary
                user_input w _ _ Hrun) as Hcases.
  assert (Hres : resolve E tools
                   (lit "Error generating response with " ++ provider ++ lit ": "
                      ++ exc_msg e) = NotCandidate).
  { apply resolve_not_candidate.
    change (lit "Error generating response with ")
      with (69%N :: lit "rror generating response with ").
    apply plain_text_not_candidate; [reflexivity|discriminate]. }
  rewrite Hres in Hcases. rewrite Hrun, Hcases. cbn [fst snd].
  rewrite added_persist. repeat split.
Qed.

(** What a turn does to the world, whatever its outcome.  *)
Lemma turn_effects (user_input : str) (w : world) :
  let w' := snd (turn user_input w) in
  stdin w' = stdin w
  /\ count is_request (added w w') <= 2
  /\ count is_generate (added w w') <= 2
  /\ count is_call_tool (added w w') <= 1
  /\ (forall e, fst (turn user_input w) = Raise e ->
        story_events w' = story_events w
        /\ filter is_markdown (added w w') = []
        /\ filter is_log_event (added w w') = []).
Proof.
  cbv zeta. rewrite turn_run. cbv zeta.
  destruct (generate_response_run E ai user_input
              (system_instruction_of w user_input) provider model w)
    as (r & reqs & Hrun & Hlen & _).
  rewrite Hrun.
  destruct (tool_round_adds (system_instruction_of w user_input) r
              (extend w (EvGenerate user_input (system_instruction_of w user_input)
                           provider model :: map EvRequest reqs)))
    as (l & Hl & Hreq & Hgen & Hcall & Hmd & Hlog).
  set (g := EvGenerate user_input (system_instruction_of w user_input)
              provider model) in *.
  change (g :: map EvRequest reqs) with ([g] ++ map EvRequest reqs) in *.
  assert (Hreqs : length (filter is_request (map EvRequest reqs)) = length reqs)
    by (rewrite <- count_requests; reflexivity).
  assert (Hnone : forall p, (forall q, p (EvRequest q) = false) ->
                            filter p (map EvRequest reqs) = [])
    by (intros p Hp; apply filter_requests; exact Hp).
  unfold count in *.
  destruct (tool_round _ r _) as [[r'|e] w2]; cbn [snd] in Hl; subst w2;
    rewrite extend_extend; cbn [fst snd].
  - rewrite added_persist. rewrite !filter_app, !length_app, Hreqs.
    rewrite !Hnone by reflexivity.
    cbn [filter length is_request is_generate is_call_tool is_markdown
           is_log_event app g].
    repeat split; try lia; discriminate.
  - rewrite added_extend. rewrite !filter_app, !length_app, Hreqs.
    rewrite !Hnone by reflexivity. rewrite Hmd, Hlog.
    cbn [filter length is_request is_generate is_call_tool is_markdown
           is_log_event app g].
    repeat split; try lia; reflexivity.
Qed.

(** X13.  A turn that fails stores nothing.  When the turn raises, which
    only the tool-call check can make it do, no narration has been displayed
    and no event stored, not even the user's line.  Whatever the outcome, a
    turn reads no input, sends at most two requests and invokes at most one
    tool. *)
Theorem failed_turn_stores_nothing (user_input : str) (w : world) :
  let w' := snd (turn user_input w) in
  stdin w' = stdin w
  /\ count is_request (added w w') <= 2
  /\ count is_generate (added w w') <= 2
  /\ count is_call_tool (added w w') <= 1
  /\ (forall e, fst (turn user_input w) = Raise e ->
        story_events w' = story_events w
        /\ filter is_markdown (added w w') = []
        /\ filter is_log_event (added w w') = []).
Proof. exact (turn_effects user_input w). Qed.

End Session.

Lemma provider_failure_narrated_witness :
  let E := scenario [Raise (mkException OtherException (lit "503 Service Unavailable"))]
             (Ok []) [] in
  fst (play E dice_tools (lit "I attack") fresh) = Ok tt.
Proof.
  intro E.
  refine (proj1 (@provider_failure_narrated E (corpus []) (_setup_clients E)
                   dice_tools (lit "openai") (lit "gpt-4o") 1%Z []
                   (lit "I attack") fresh
                   (OpenAIChatCompletion (lit "gpt-4o")
                      [mkMessage (lit "system")
                         (system_instruction_of (corpus []) dice_tools 1%Z []
                            fresh (lit "I attack"));
                       mkMessage (lit "user") (lit "I attack")])
                   (mkException OtherException (lit "503 Service Unavailable"))
                   _ _)).
  - vm_compute. right. left. reflexivity.
  - reflexivity.
Defined.

Lemma failed_turn_stores_nothing_witness :
  let E := scenario [Ok roll_reply] (Raise not_connected)
             [(roll_reply, JObject roll_fields)] in
  story_events (snd (play E dice_tools (lit "I attack") fresh)) = [].
Proof.
  intro E.
  apply (proj2 (proj2 (proj2 (proj2
           (@failed_turn_stores_nothing E (corpus []) (_setup_clients E)
              dice_tools (lit "openai") (lit "gpt-4o") 1%Z [] (lit "I attack")
              fresh)))) not_connected).
  vm_compute. reflexivity.
Defined.

End CliExtras.
